(** * Invoice / purchase-order matching: a shallow embedding of
    [perform_matching_logic] (src/backend/app.py, lines 96-156).

    Data model.
    - A Python [str] is a sequence of Unicode code points: [pystr := list N].
      String literals of the source are ASCII apart from the two emoji
      markers, written out as code points.
    - The documents are the dicts returned by [json.loads] on the extraction
      response, whose schema (app.py, lines 46-67) types every field; a key
      may be missing, so each field is an [option].  JSON numbers are the
      binary64 floats of Python ([spec_float] with 53 bits of precision and
      emax 1024, Rocq's executable IEEE-754 specification).
    - [str.lower] (the full Unicode case mapping) and the built-in [sum] over
      floats (plain left-to-right addition before Python 3.12, compensated
      summation from 3.12 on) are kept abstract as Section variables:
      every theorem holds for any choice of them.  Concrete instances
      ([ascii_lower], [sum_left]) are given for the concrete runs. *)

From Stdlib Require Import ZArith NArith List String Ascii Bool Lia QArith.
From Stdlib Require Import Floats.SpecFloat Qabs.
Import ListNotations.
Close Scope Q_scope.

(** ** Python strings *)

Definition pystr := list N.

(** An ASCII Rocq string as a Python string. *)
Definition lit (s : string) : pystr :=
  map N_of_ascii (list_ascii_of_string s).

(** U+2705 WHITE HEAVY CHECK MARK, as in the source's success messages. *)
Definition check_mark : pystr := [9989%N].
(** U+26A0 WARNING SIGN followed by U+FE0F VARIATION SELECTOR-16. *)
Definition warning_sign : pystr := [9888%N; 65039%N].

Definition pystr_eqb (a b : pystr) : bool :=
  if list_eq_dec N.eq_dec a b then true else false.

(** [str.isspace] for one code point: the characters Python strips. *)
Definition py_isspace (c : N) : bool :=
  ((9 <=? c) && (c <=? 13))%N || ((28 <=? c) && (c <=? 32))%N
  || (c =? 133)%N || (c =? 160)%N || (c =? 5760)%N
  || ((8192 <=? c) && (c <=? 8202))%N
  || (c =? 8232)%N || (c =? 8233)%N || (c =? 8239)%N || (c =? 8287)%N
  || (c =? 12288)%N.

Fixpoint lstrip (s : pystr) : pystr :=
  match s with
  | [] => []
  | c :: t => if py_isspace c then lstrip t else s
  end.

(** [str.strip()] with no argument. *)
Definition strip (s : pystr) : pystr := rev (lstrip (rev (lstrip s))).

(** Truthiness of [d.get(key)] for a string value: [None] and [''] are
    false. *)
Definition py_truthy (o : option pystr) : bool :=
  match o with
  | Some (_ :: _) => true
  | _ => false
  end.

(** [f"{x}"] for an optional string: a missing key prints as [None]. *)
Definition show_opt (o : option pystr) : pystr :=
  match o with
  | Some s => s
  | None => lit "None"
  end.

(** Decimal digits of a non-negative integer, as [str(n)]. *)
Fixpoint digits_aux (fuel : nat) (n : Z) (acc : pystr) : pystr :=
  match fuel with
  | O => acc
  | S fuel' =>
      let acc' := (48 + Z.to_N (n mod 10))%N :: acc in
      if (n <? 10)%Z then acc' else digits_aux fuel' (n / 10)%Z acc'
  end.

Definition show_Z (n : Z) : pystr := digits_aux (Z.to_nat (Z.log2 n) + 1) n [].

Definition show_nat (n : nat) : pystr := show_Z (Z.of_nat n).

(** ASCII-only case mapping, which agrees with [str.lower] on ASCII text;
    used for concrete runs. *)
Definition ascii_lower (s : pystr) : pystr :=
  map (fun c => if ((65 <=? c) && (c <=? 90))%N then (c + 32)%N else c) s.

(** ** Python floats (IEEE-754 binary64) *)

Definition prec : Z := 53.
Definition emax : Z := 1024.

Definition float := spec_float.

Definition fsub := SFsub prec emax.
Definition fadd := SFadd prec emax.
Definition fabs := SFabs.
Definition fltb := SFltb.

(** [0.0] *)
Definition fzero : float := S754_zero false.

(** The double nearest to the integer [n]. *)
Definition float_of_Z (n : Z) : float := binary_normalize prec emax n 0 false.

(** The double nearest to [n / 10^k]: what [json.loads] or a Python literal
    produces for a decimal with [k] digits after the point. *)
Definition dec (n : Z) (k : nat) : float :=
  SFdiv prec emax (float_of_Z n) (float_of_Z (10 ^ Z.of_nat k)).

(** Round-half-to-even of [num / den] for [den > 0]. *)
Definition round_half_even (num den : Z) : Z :=
  let q := (num / den)%Z in
  let r := (num mod den)%Z in
  if (den <? 2 * r)%Z || ((2 * r =? den)%Z && Z.odd q) then (q + 1)%Z else q.

Definition sign_prefix (s : bool) : pystr := if s then lit "-" else [].

Definition two_digits (r : Z) : pystr :=
  if (r <? 10)%Z then lit "0" ++ show_Z r else show_Z r.

(** [f"{x:.2f}"]: the exact binary value rounded half-to-even to two
    decimals, the sign kept also on a value that rounds to zero. *)
Definition fmt2 (x : float) : pystr :=
  match x with
  | S754_zero s => sign_prefix s ++ lit "0.00"
  | S754_infinity s => sign_prefix s ++ lit "inf"
  | S754_nan => lit "nan"
  | S754_finite s m e =>
      let q :=
        if (0 <=? e)%Z then (Z.pos m * 2 ^ e * 100)%Z
        else round_half_even (Z.pos m * 100) (2 ^ (- e)) in
      sign_prefix s ++ show_Z (q / 100) ++ lit "." ++ two_digits (q mod 100)
  end.

(** Python's [sum] of floats before 3.12: start from [0], add left to
    right. *)
Definition sum_left (l : list float) : float := fold_left fadd l fzero.

(** The exact rational value of a finite double. *)
Definition to_Q (x : float) : Q :=
  match x with
  | S754_finite s m e =>
      let v := if (0 <=? e)%Z then inject_Z (Z.pos m * 2 ^ e)
               else Qmake (Z.pos m) (Z.to_pos (2 ^ (- e))) in
      if s then Qopp v else v
  | _ => 0%Q
  end.

(** ** Documents *)

(** One element of [items] (schema: description, quantity, unit_price,
    line_total). *)
Record LineItem := {
  description : option pystr;
  quantity : option Z;
  unit_price : option float;
  line_total : option float
}.

(** The dict extracted for an invoice or a purchase order. *)
Record Document := {
  id : option pystr;
  vendor : option pystr;
  total : option float;
  items : option (list LineItem)
}.

(** [d.get('vendor', '')] *)
Definition get_vendor_or_empty (d : Document) : pystr :=
  match vendor d with Some v => v | None => [] end.

(** [float(d.get('total', 0.0))] *)
Definition get_total (d : Document) : float :=
  match total d with Some x => x | None => fzero end.

(** [d.get('items', [])] *)
Definition get_items (d : Document) : list LineItem :=
  match items d with Some l => l | None => [] end.

(** [item.get('line_total', 0)] *)
Definition get_line_total (it : LineItem) : float :=
  match line_total it with Some x => x | None => fzero end.

(** ** The matching state: [is_match] and the [explanations] list *)

Record MatchState := {
  is_match : bool;
  explanations : list pystr
}.

(** [explanations.append(s)] *)
Definition append_expl (s : pystr) (st : MatchState) : MatchState :=
  {| is_match := is_match st; explanations := explanations st ++ [s] |}.

(** [is_match = False] *)
Definition clear_match (st : MatchState) : MatchState :=
  {| is_match := false; explanations := explanations st |}.

(** [explanations[0] = s]; the list always holds the header when this runs
    (Python would raise [IndexError] on an empty list). *)
Definition set_first (s : pystr) (l : list pystr) : list pystr :=
  match l with
  | [] => []
  | _ :: t => s :: t
  end.

(** [tolerance = 0.01] *)
Definition tolerance : float := dec 1 2.

(** [abs(a - b) < tolerance], the comparison of the total and line-item
    checks. *)
Definition within_tolerance (a b : float) : bool :=
  fltb (fabs (fsub a b)) tolerance.

(** ** The messages of [perform_matching_logic] *)

Definition header_msg : pystr :=
  lit "Running 3-Way Match (Header, Total, Line Items)...".

Definition vendor_ok_msg (inv : Document) : pystr :=
  check_mark ++ lit " Vendor matches: " ++ get_vendor_or_empty inv.

Definition vendor_mismatch_msg (inv po : Document) : pystr :=
  warning_sign ++ lit " VENDOR MISMATCH: Invoice Vendor '" ++ show_opt (vendor inv)
  ++ lit "' does not match PO Vendor '" ++ show_opt (vendor po) ++ lit "'".

Definition id_msg (inv po : Document) : pystr :=
  check_mark ++ lit " Invoice ID (" ++ show_opt (id inv)
  ++ lit ") matched against PO ID (" ++ show_opt (id po) ++ lit ")".

Definition total_ok_msg (inv_total : float) : pystr :=
  check_mark ++ lit " Total amount matches: $" ++ fmt2 inv_total.

Definition total_mismatch_msg (inv_total po_total diff : float) : pystr :=
  warning_sign ++ lit " TOTAL MISMATCH: Invoice Total ($" ++ fmt2 inv_total
  ++ lit ") differs from PO Total ($" ++ fmt2 po_total
  ++ lit "). Difference: $" ++ fmt2 diff.

Definition count_mismatch_msg (n_inv n_po : nat) : pystr :=
  warning_sign ++ lit " LINE ITEM COUNT MISMATCH: Invoice has " ++ show_nat n_inv
  ++ lit " items, PO has " ++ show_nat n_po ++ lit " items.".

Definition lines_ok_msg (inv_sum : float) : pystr :=
  check_mark ++ lit " All line items and line totals appear correct (Line Sum: $"
  ++ fmt2 inv_sum ++ lit ")".

Definition lines_mismatch_msg (diff : float) : pystr :=
  warning_sign ++ lit " LINE ITEM TOTAL MISMATCH: Sum of line items differs by $"
  ++ fmt2 diff ++ lit ". Check quantity/price of individual items.".

Definition approved_msg : pystr :=
  check_mark ++ lit " Perfect Match! Status: APPROVED - No issues found.".

Definition review_msg (final_status : pystr) : pystr :=
  warning_sign ++ lit " Mismatch Found. Status: " ++ final_status
  ++ lit " - Flagged for Finance Review.".

Section Matching.

(** [str.lower] *)
Variable str_lower : pystr -> pystr.
(** The built-in [sum] over a list of floats. *)
Variable py_sum : list float -> float.

(** The condition of the vendor [if] (line 107). *)
Definition vendor_cond (inv po : Document) : bool :=
  py_truthy (vendor inv)
  && pystr_eqb (str_lower (strip (get_vendor_or_empty inv)))
               (str_lower (strip (get_vendor_or_empty po))).

(** [sum(item.get('line_total', 0) for item in items)] *)
Definition line_sum (l : list LineItem) : float := py_sum (map get_line_total l).

(** [perform_matching_logic(invoice_data, po_data)], returning
    [(final_status, explanations)]. *)
Definition perform_matching_logic (invoice_data po_data : Document)
  : pystr * list pystr :=
  let st := {| is_match := true; explanations := [] |} in
  (* 1. summary header *)
  let st := append_expl header_msg st in
  (* 2. vendor / id *)
  let st :=
    if vendor_cond invoice_data po_data
    then append_expl (vendor_ok_msg invoice_data) st
    else clear_match (append_expl (vendor_mismatch_msg invoice_data po_data) st) in
  let st := append_expl (id_msg invoice_data po_data) st in
  (* 3. total amount *)
  let inv_total := get_total invoice_data in
  let po_total := get_total po_data in
  let st :=
    if within_tolerance inv_total po_total
    then append_expl (total_ok_msg inv_total) st
    else
      let diff := fabs (fsub inv_total po_total) in
      clear_match (append_expl (total_mismatch_msg inv_total po_total diff) st) in
  (* 4. line items *)
  let inv_items := get_items invoice_data in
  let po_items := get_items po_data in
  let st :=
    if negb (Nat.eqb (List.length inv_items) (List.length po_items))
    then clear_match
           (append_expl (count_mismatch_msg (List.length inv_items) (List.length po_items)) st)
    else
      let inv_sum_lines := line_sum inv_items in
      let po_sum_lines := line_sum po_items in
      if within_tolerance inv_sum_lines po_sum_lines
      then append_expl (lines_ok_msg inv_sum_lines) st
      else
        let diff := fabs (fsub inv_sum_lines po_sum_lines) in
        clear_match (append_expl (lines_mismatch_msg diff) st) in
  (* 5. final status *)
  let final_status := if is_match st then lit "APPROVED" else lit "NEEDS REVIEW" in
  let explanations :=
    if pystr_eqb final_status (lit "APPROVED")
    then set_first approved_msg (explanations st)
    else set_first (review_msg final_status) (explanations st) in
  (final_status, explanations).

End Matching.

(** ** Views of one run, used to state properties of it *)

Definition float_is_finite (x : float) : bool :=
  match x with
  | S754_zero _ | S754_finite _ _ _ => true
  | _ => false
  end.

Definition verdict (passes : bool) : pystr :=
  if passes then lit "APPROVED" else lit "NEEDS REVIEW".

Definition summary_msg (passes : bool) : pystr :=
  if passes then approved_msg else review_msg (lit "NEEDS REVIEW").

(** [d] with its [id] replaced. *)
Definition with_id (i : option pystr) (d : Document) : Document :=
  {| id := i; vendor := vendor d; total := total d; items := items d |}.

(** [d] with every absent number written as the [0] it defaults to. *)
Definition fill_item (it : LineItem) : LineItem :=
  {| description := description it; quantity := quantity it;
     unit_price := unit_price it; line_total := Some (get_line_total it) |}.

Definition zero_fill (d : Document) : Document :=
  {| id := id d; vendor := vendor d; total := Some (get_total d);
     items := option_map (map fill_item) (items d) |}.

(** [d] with the item fields that no check reads cleared. *)
Definition erase_item (it : LineItem) : LineItem :=
  {| description := None; quantity := None; unit_price := None;
     line_total := line_total it |}.

Definition erase (d : Document) : Document :=
  {| id := id d; vendor := vendor d; total := total d;
     items := option_map (map erase_item) (items d) |}.

Section Views.

Variable str_lower : pystr -> pystr.
Variable py_sum : list float -> float.

Definition vendor_finding (inv po : Document) : pystr :=
  if vendor_cond str_lower inv po then vendor_ok_msg inv
  else vendor_mismatch_msg inv po.

Definition total_passes (inv po : Document) : bool :=
  within_tolerance (get_total inv) (get_total po).

Definition total_finding (inv po : Document) : pystr :=
  let a := get_total inv in
  let b := get_total po in
  if within_tolerance a b then total_ok_msg a
  else total_mismatch_msg a b (fabs (fsub a b)).

Definition lines_passes (inv po : Document) : bool :=
  let a := get_items inv in
  let b := get_items po in
  Nat.eqb (List.length a) (List.length b)
  && within_tolerance (line_sum py_sum a) (line_sum py_sum b).

Definition lines_finding (inv po : Document) : pystr :=
  let a := get_items inv in
  let b := get_items po in
  if Nat.eqb (List.length a) (List.length b) then
    let sa := line_sum py_sum a in
    let sb := line_sum py_sum b in
    if within_tolerance sa sb then lines_ok_msg sa
    else lines_mismatch_msg (fabs (fsub sa sb))
  else count_mismatch_msg (List.length a) (List.length b).

(** The four checks; the identifier check has no condition. *)
Definition all_pass (inv po : Document) : bool :=
  vendor_cond str_lower inv po && true && total_passes inv po && lines_passes inv po.

End Views.

(** ** Sample documents *)

Definition item (lt : float) : LineItem :=
  {| description := None; quantity := None; unit_price := None; line_total := Some lt |}.

Definition doc (i v : string) (t : float) (l : list LineItem) : Document :=
  {| id := Some (lit i); vendor := Some (lit v); total := Some t; items := Some l |}.

(** The example of the spec: Acme, 1050.00 against 1049.99. *)
Definition acme_invoice : Document :=
  doc "INV-1" "Acme" (dec 105000 2) [item (dec 500 0); item (dec 550 0)].
Definition acme_po : Document :=
  doc "PO-1" "Acme" (dec 104999 2) [item (dec 500 0); item (dec 54999 2)].

(** [d] with its [vendor] replaced. *)
Definition with_vendor (v : option pystr) (d : Document) : Document :=
  {| id := id d; vendor := v; total := total d; items := items d |}.

(** A document whose vendor came back empty. *)
Definition blank_vendor_doc : Document :=
  doc "INV-2" "" (dec 10000 2) [item (dec 10000 2)].

(** The example of the spec for the vendor check. *)
Definition acme_co_invoice : Document := with_vendor (Some (lit "Acme Co ")) acme_invoice.
Definition acme_co_po : Document := with_vendor (Some (lit "acme co")) acme_po.

(** Totals 0.02 against 0.01, and 0.01 against 5e-19. *)
Definition cents_invoice : Document := doc "INV-3" "Acme" (dec 2 2) [].
Definition cents_po : Document := doc "PO-3" "Acme" (dec 1 2) [].
Definition tiny_po : Document := doc "PO-4" "Acme" (dec 5 19) [].

(** The example of the spec with item descriptions and prices filled in. *)
Definition described (d : string) (q : Z) (lt : float) : LineItem :=
  {| description := Some (lit d); quantity := Some q; unit_price := Some lt;
     line_total := Some lt |}.
Definition acme_invoice_described : Document :=
  doc "INV-1" "Acme" (dec 105000 2)
    [described "Widgets" 1 (dec 500 0); described "Gadgets" 1 (dec 550 0)].

(** ** The extraction steps and the [/match] endpoint (app.py, lines 30-206) *)

(** The contents of an uploaded file. *)
Definition bytes := list Byte.byte.

Definition newline : pystr := [10%N].

(** ["\n---\n"], appended after each page's text. *)
Definition page_sep : pystr := newline ++ lit "---" ++ newline.

(** The loop of [extract_text_from_pdf]: [text += page.extract_text() +
    "\n---\n"] for each page.  A page whose [extract_text()] returns [None]
    makes the concatenation raise [TypeError], caught by the [except]
    clause: the function then returns [None]. *)
Fixpoint concat_pages (pages : list (option pystr)) (text : pystr) : option pystr :=
  match pages with
  | [] => Some text
  | None :: _ => None
  | Some t :: rest => concat_pages rest (text ++ t ++ page_sep)
  end.

(** What [ai_extract_data] gets back from the model call followed by
    [json.loads(response.text)]: the parsed dict, or the message of the
    exception raised by either step. *)
Inductive GenResult :=
  | GenOk (d : Document)
  | GenExn (e : pystr).

(** The dict returned by [ai_extract_data]: the extracted document, or
    [{"error": f"AI extraction failed: {e}"}].  The extracted dict follows
    the response schema, which has no ["error"] key. *)
Inductive AIData :=
  | AIDoc (d : Document)
  | AIError (msg : pystr).

(** [data.get('error', '')] *)
Definition get_error (a : AIData) : pystr :=
  match a with
  | AIDoc _ => []
  | AIError m => m
  end.

(** The body passed to [jsonify]: [{"status": "error", "message": m}] or
    [{"status": s, "explanations": e, "invoice_data": i, "po_data": p}]. *)
Inductive Body :=
  | JError (message : pystr)
  | JMatch (status : pystr) (explanations : list pystr) (invoice_data po_data : Document).

Record Response := {
  code : Z;
  body : Body
}.

(** The calls the endpoint makes to its collaborators, in order: reading a
    PDF with pdfplumber, and one model call with its document type and the
    PDF text it is given. *)
Inductive Event :=
  | EvPdf (file : bytes)
  | EvAI (doc_type : pystr) (pdf_text : pystr).

(** [request.files[key]]: the first file uploaded under [key]. *)
Fixpoint lookup_file (key : pystr) (files : list (pystr * bytes)) : option bytes :=
  match files with
  | [] => None
  | (k, b) :: rest => if pystr_eqb k key then Some b else lookup_file key rest
  end.

Definition system_prompt (doc_type : pystr) : pystr :=
  lit "You are an expert Finance Document Processor. "
  ++ lit "Your task is to analyze the provided text from a financial document "
  ++ lit "which is a '" ++ doc_type ++ lit "', and extract the required fields. "
  ++ lit "Strictly adhere to the provided JSON schema. Ensure the 'total' is the final amount (including tax/VAT).".

Definition user_prompt (pdf_text : pystr) : pystr :=
  lit "Extract all data from the following document text:" ++ newline ++ newline
  ++ lit "---" ++ newline ++ pdf_text ++ newline ++ lit "---".

Definition missing_file_msg : pystr := lit "Missing 'invoice' or 'po' file in request.".
Definition no_text_msg : pystr := lit "Failed to extract text from one or both PDFs.".

Section Endpoint.

Variable str_lower : pystr -> pystr.
Variable py_sum : list float -> float.
(** [pdfplumber.open(stream)], then [page.extract_text()] on each page of
    [pdf.pages]: the text of each page ([None] for a page where
    [extract_text()] returns [None]), or [None] when any of these steps
    raises (opening the file, listing its pages or extracting a page's
    text), which the [except Exception] clause turns into a [None]
    result. *)
Variable pdf_pages : bytes -> option (list (option pystr)).
(** [client.models.generate_content(...)] with [json.loads] of its text,
    given the document type (named in the schema's [id] description), the
    system prompt and the user prompt. *)
Variable generate : pystr -> pystr -> pystr -> GenResult.

Definition extract_text_from_pdf (file_stream : bytes) : option pystr :=
  match pdf_pages file_stream with
  | None => None
  | Some pages => concat_pages pages []
  end.

Definition ai_extract_data (pdf_text doc_type : pystr) : AIData :=
  match generate doc_type (system_prompt doc_type) (user_prompt pdf_text) with
  | GenOk d => AIDoc d
  | GenExn e => AIError (lit "AI extraction failed: " ++ e)
  end.

(** [match_documents()] on the uploaded [request.files], with the calls it
    makes.  Logging is left out. *)
Definition match_documents (files : list (pystr * bytes)) : Response * list Event :=
  match lookup_file (lit "invoice") files, lookup_file (lit "po") files with
  | Some invoice_file, Some po_file =>
      let invoice_text := extract_text_from_pdf invoice_file in
      let po_text := extract_text_from_pdf po_file in
      let trace := [EvPdf invoice_file; EvPdf po_file] in
      (* [if not invoice_text or not po_text]: [None] and [""] are false *)
      match invoice_text, po_text with
      | Some ((_ :: _) as it), Some ((_ :: _) as pt) =>
          let invoice_data := ai_extract_data it (lit "INVOICE") in
          let po_data := ai_extract_data pt (lit "PURCHASE ORDER") in
          let trace := trace ++ [EvAI (lit "INVOICE") it; EvAI (lit "PURCHASE ORDER") pt] in
          match invoice_data, po_data with
          | AIDoc i, AIDoc p =>
              let '(status, explanations) := perform_matching_logic str_lower py_sum i p in
              ({| code := 200; body := JMatch status explanations i p |}, trace)
          | _, _ =>
              ({| code := 500;
                  body := JError (lit "Extraction failed: " ++ get_error invoice_data
                                  ++ lit " " ++ get_error po_data) |}, trace)
          end
      | _, _ => ({| code := 500; body := JError no_text_msg |}, trace)
      end
  | _, _ => ({| code := 400; body := JError missing_file_msg |}, [])
  end.

End Endpoint.

(** ** Sample collaborators and uploads *)

(** The message part contributed by one model call to the endpoint's
    ["Extraction failed: ..."] message. *)
Definition exn_text (g : GenResult) : pystr :=
  match g with
  | GenOk _ => []
  | GenExn e => lit "AI extraction failed: " ++ e
  end.

(** A PDF reader: no bytes is a PDF without pages, a leading zero byte is a
    file pdfplumber cannot open, anything else is a one-page PDF. *)
Definition sample_pdf_pages (b : bytes) : option (list (option pystr)) :=
  match b with
  | [] => Some []
  | Byte.x00 :: _ => None
  | _ => Some [Some (lit "Acme 1050.00")]
  end.

(** A model that returns the Acme example. *)
Definition sample_generate (doc_type _system _user : pystr) : GenResult :=
  if pystr_eqb doc_type (lit "INVOICE") then GenOk acme_invoice else GenOk acme_po.

(** A model whose purchase-order call raises. *)
Definition quota_generate (doc_type _system _user : pystr) : GenResult :=
  if pystr_eqb doc_type (lit "INVOICE") then GenOk acme_invoice
  else GenExn (lit "429 RESOURCE_EXHAUSTED").

Definition pdf_file : bytes := [Byte.x25; Byte.x50; Byte.x44; Byte.x46].

Definition sample_upload : list (pystr * bytes) :=
  [(lit "invoice", pdf_file); (lit "po", pdf_file)].
Definition pageless_upload : list (pystr * bytes) :=
  [(lit "invoice", []); (lit "po", pdf_file)].
Definition invoice_only_upload : list (pystr * bytes) :=
  [(lit "invoice", pdf_file)].

(** A document whose total overflowed to infinity ([json.loads] reads
    [1e400] as [inf]), and documents without items. *)
Definition overflow_invoice : Document :=
  {| id := Some (lit "INV-5"); vendor := Some (lit "Acme");
     total := Some (S754_infinity false); items := None |}.
Definition no_items_po : Document := doc "PO-5" "Acme" (dec 100 0) [].

(** * Properties *)

(** ** Helper lemmas *)

Lemma pystr_eqb_refl (s : pystr) : pystr_eqb s s = true.
Proof. unfold pystr_eqb. destruct (list_eq_dec N.eq_dec s s); congruence. Qed.

Lemma pystr_eqb_eq (a b : pystr) : pystr_eqb a b = true <-> a = b.
Proof. unfold pystr_eqb. destruct (list_eq_dec N.eq_dec a b); split; congruence. Qed.

Lemma approved_eqb : pystr_eqb (lit "APPROVED") (lit "APPROVED") = true.
Proof. reflexivity. Qed.

Lemma review_eqb : pystr_eqb (lit "NEEDS REVIEW") (lit "APPROVED") = false.
Proof. reflexivity. Qed.

Section Run.

Variable str_lower : pystr -> pystr.
Variable py_sum : list float -> float.

(** One run, check by check: the status and the five entries. *)
Lemma perform_matching_logic_eq (inv po : Document) :
  perform_matching_logic str_lower py_sum inv po =
  (verdict (all_pass str_lower py_sum inv po),
   [summary_msg (all_pass str_lower py_sum inv po);
    vendor_finding str_lower inv po;
    id_msg inv po;
    total_finding inv po;
    lines_finding py_sum inv po]).
Proof.
  unfold perform_matching_logic, all_pass, vendor_finding, total_passes,
    total_finding, lines_passes, lines_finding.
  destruct (vendor_cond str_lower inv po);
  destruct (within_tolerance (get_total inv) (get_total po));
  destruct (Nat.eqb (List.length (get_items inv)) (List.length (get_items po)));
  try destruct (within_tolerance (line_sum py_sum (get_items inv))
                                  (line_sum py_sum (get_items po)));
  cbn [negb andb is_match explanations append_expl clear_match app verdict summary_msg];
  rewrite ?approved_eqb, ?review_eqb; reflexivity.
Qed.

End Run.

(** A finite double is within tolerance of itself: [x - x] is [+0.0]. *)
Lemma within_tolerance_refl (x : float) :
  float_is_finite x = true -> within_tolerance x x = true.
Proof.
  intros Hx. destruct x as [s|s| |s m e]; try discriminate Hx.
  - destruct s; reflexivity.
  - unfold within_tolerance, fsub, SFsub.
    rewrite Z.min_id. unfold shl_align. rewrite !Z.sub_diag. reflexivity.
Qed.

Lemma line_sum_map_fill (py_sum : list float -> float) (l : list LineItem) :
  line_sum py_sum (map fill_item l) = line_sum py_sum l.
Proof.
  unfold line_sum. rewrite map_map. reflexivity.
Qed.

Lemma line_sum_map_erase (py_sum : list float -> float) (l : list LineItem) :
  line_sum py_sum (map erase_item l) = line_sum py_sum l.
Proof.
  unfold line_sum. rewrite map_map. reflexivity.
Qed.

Lemma get_items_zero_fill (d : Document) :
  get_items (zero_fill d) = map fill_item (get_items d).
Proof. unfold get_items, zero_fill. destruct (items d); reflexivity. Qed.

Lemma get_items_erase (d : Document) :
  get_items (erase d) = map erase_item (get_items d).
Proof. unfold get_items, erase. destruct (items d); reflexivity. Qed.

(** ** C3: the verdict is the conjunction of the four checks, and no check
    is skipped *)

(** C3: the status is [APPROVED] exactly when the vendor, identifier, total
    and line-item checks all pass, and [NEEDS REVIEW] otherwise; whatever
    the outcome of the earlier checks, each of the four checks contributes
    its own finding. *)
Theorem verdict_is_conjunction (str_lower : pystr -> pystr)
  (py_sum : list float -> float) (inv po : Document) :
  let r := perform_matching_logic str_lower py_sum inv po in
  (fst r = lit "APPROVED" <->
     vendor_cond str_lower inv po = true /\ total_passes inv po = true
     /\ lines_passes py_sum inv po = true)
  /\ (fst r = lit "NEEDS REVIEW" <->
     vendor_cond str_lower inv po = false \/ total_passes inv po = false
     \/ lines_passes py_sum inv po = false)
  /\ tl (snd r) = [vendor_finding str_lower inv po; id_msg inv po;
                   total_finding inv po; lines_finding py_sum inv po].
Proof.
  cbv zeta. rewrite perform_matching_logic_eq. cbn [fst snd tl].
  unfold verdict, all_pass.
  destruct (vendor_cond str_lower inv po), (total_passes inv po),
    (lines_passes py_sum inv po); cbn;
  repeat split; intros; intuition (try discriminate; try reflexivity).
Qed.

(** ** C6: the shape of the report *)

(** C6: the findings list always has exactly five entries: the summary at
    index 0, then the vendor, identifier, total and line-item findings at
    indices 1 to 4, whatever the checks decide. *)
Theorem findings_shape (str_lower : pystr -> pystr)
  (py_sum : list float -> float) (inv po : Document) :
  let f := snd (perform_matching_logic str_lower py_sum inv po) in
  List.length f = 5
  /\ nth 0 f [] = summary_msg (all_pass str_lower py_sum inv po)
  /\ nth 1 f [] = vendor_finding str_lower inv po
  /\ nth 2 f [] = id_msg inv po
  /\ nth 3 f [] = total_finding inv po
  /\ nth 4 f [] = lines_finding py_sum inv po.
Proof.
  cbv zeta. rewrite perform_matching_logic_eq. cbn. repeat split.
Qed.

(** Filling the absent numbers with [0] does not change a run. *)
Lemma perform_matching_logic_zero_fill (str_lower : pystr -> pystr)
  (py_sum : list float -> float) (inv po : Document) :
  perform_matching_logic str_lower py_sum (zero_fill inv) (zero_fill po) =
  perform_matching_logic str_lower py_sum inv po.
Proof.
  rewrite !perform_matching_logic_eq.
  unfold all_pass, lines_passes, lines_finding.
  rewrite !get_items_zero_fill, !length_map, !line_sum_map_fill.
  reflexivity.
Qed.

(** Clearing description, quantity and unit price does not change a run. *)
Lemma perform_matching_logic_erase (str_lower : pystr -> pystr)
  (py_sum : list float -> float) (inv po : Document) :
  perform_matching_logic str_lower py_sum (erase inv) (erase po) =
  perform_matching_logic str_lower py_sum inv po.
Proof.
  rewrite !perform_matching_logic_eq.
  unfold all_pass, lines_passes, lines_finding.
  rewrite !get_items_erase, !length_map, !line_sum_map_erase.
  reflexivity.
Qed.

(** ** C7: the identifier check is informational *)

(** C7: the identifier finding (index 2) always says the two ids were
    matched, printing them as they are (a missing id as [None]), and
    replacing either id by any other value leaves the status unchanged. *)
Theorem id_check_informational (str_lower : pystr -> pystr)
  (py_sum : list float -> float) (inv po : Document) (i1 i2 : option pystr) :
  nth 2 (snd (perform_matching_logic str_lower py_sum inv po)) [] =
    check_mark ++ lit " Invoice ID (" ++ show_opt (id inv)
    ++ lit ") matched against PO ID (" ++ show_opt (id po) ++ lit ")"
  /\ fst (perform_matching_logic str_lower py_sum (with_id i1 inv) (with_id i2 po)) =
     fst (perform_matching_logic str_lower py_sum inv po).
Proof.
  rewrite !perform_matching_logic_eq. split; reflexivity.
Qed.

(** ** C8: absent numbers count as zero *)

(** C8: a run on documents with absent [total] or [line_total] fields is the
    run on the same documents with each absent number set to [0]; and every
    run returns one of the two statuses with its five findings. *)
Theorem absent_numbers_are_zero (str_lower : pystr -> pystr)
  (py_sum : list float -> float) (inv po : Document) :
  let r := perform_matching_logic str_lower py_sum inv po in
  r = perform_matching_logic str_lower py_sum (zero_fill inv) (zero_fill po)
  /\ (fst r = lit "APPROVED" \/ fst r = lit "NEEDS REVIEW")
  /\ List.length (snd r) = 5%nat.
Proof.
  cbv zeta. rewrite perform_matching_logic_zero_fill.
  rewrite perform_matching_logic_eq. cbn [fst snd List.length].
  unfold verdict. destruct (all_pass str_lower py_sum inv po); auto.
Qed.

(** ** C9: the vendor check needs an invoice vendor *)

(** C9: the vendor check passes only if the invoice's vendor is present and
    non-empty; an absent or empty invoice vendor fails it whatever the PO's
    vendor is; and it is not symmetric: an invoice vendor [" "] against a PO
    vendor [""] passes, the swapped pair fails. *)
Theorem vendor_check_asymmetric (str_lower : pystr -> pystr) (inv po : Document) :
  (vendor_cond str_lower inv po = true -> exists v, vendor inv = Some v /\ v <> [])
  /\ (py_truthy (vendor inv) = false -> vendor_cond str_lower inv po = false)
  /\ (let a := with_vendor (Some (lit " ")) inv in
      let b := with_vendor (Some []) po in
      vendor_cond str_lower a b = true /\ vendor_cond str_lower b a = false).
Proof.
  unfold vendor_cond. split; [|split].
  - destruct (vendor inv) as [[|c v]|]; cbn; try discriminate.
    intros _. exists (c :: v). split; [reflexivity | discriminate].
  - intros H. rewrite H. reflexivity.
  - cbv zeta. cbn. split; [apply pystr_eqb_refl | reflexivity].
Qed.

(** ** C10: description, quantity and unit price are not read *)

(** C10: two runs on documents that agree on everything but the items'
    description, quantity and unit price give the same status and the same
    findings. *)
Theorem uncompared_fields_noninterference (str_lower : pystr -> pystr)
  (py_sum : list float -> float) (inv inv' po po' : Document)
  (Hinv : erase inv = erase inv') (Hpo : erase po = erase po') :
  perform_matching_logic str_lower py_sum inv po =
  perform_matching_logic str_lower py_sum inv' po'.
Proof.
  rewrite <- (perform_matching_logic_erase str_lower py_sum inv po).
  rewrite <- (perform_matching_logic_erase str_lower py_sum inv' po').
  rewrite Hinv, Hpo. reflexivity.
Qed.

Lemma uncompared_fields_noninterference_witness :
  erase acme_invoice = erase acme_invoice_described
  /\ erase acme_po = erase acme_po
  /\ perform_matching_logic ascii_lower sum_left acme_invoice acme_po =
     perform_matching_logic ascii_lower sum_left acme_invoice_described acme_po.
Proof.
  split; [reflexivity | split; [reflexivity |]].
  apply (uncompared_fields_noninterference ascii_lower sum_left
           acme_invoice acme_invoice_described acme_po acme_po);
    reflexivity.
Defined.

(** ** C1: a document against itself *)

(** C1 (counterexample): a document whose vendor came back empty does not
    reconcile with itself: its vendor check fails and the status is
    [NEEDS REVIEW]. *)
Lemma self_match_blank_vendor_fails :
  vendor_cond ascii_lower blank_vendor_doc blank_vendor_doc = false
  /\ fst (perform_matching_logic ascii_lower sum_left blank_vendor_doc blank_vendor_doc)
     = lit "NEEDS REVIEW".
Proof. split; vm_compute; reflexivity. Qed.

(** C1 (amended): a document whose vendor is present and non-empty, whose
    total (or its default [0]) is finite and whose line-total sum is finite
    reconciles with itself: the vendor, total and line-item checks pass (the
    identifier check always does) and the status is [APPROVED].  A document
    whose vendor is absent or empty fails the vendor check against itself
    and gets [NEEDS REVIEW]. *)
Theorem self_match_approved (str_lower : pystr -> pystr)
  (py_sum : list float -> float) (d : Document) :
  (py_truthy (vendor d) = true ->
   float_is_finite (get_total d) = true ->
   float_is_finite (line_sum py_sum (get_items d)) = true ->
   vendor_cond str_lower d d = true
   /\ total_passes d d = true
   /\ lines_passes py_sum d d = true
   /\ perform_matching_logic str_lower py_sum d d =
      (lit "APPROVED",
       [approved_msg; vendor_ok_msg d; id_msg d d; total_ok_msg (get_total d);
        lines_ok_msg (line_sum py_sum (get_items d))]))
  /\ (py_truthy (vendor d) = false ->
      vendor_cond str_lower d d = false
      /\ fst (perform_matching_logic str_lower py_sum d d) = lit "NEEDS REVIEW").
Proof.
  split.
  - intros Hv Ht Hs.
    assert (HV : vendor_cond str_lower d d = true).
    { unfold vendor_cond. rewrite Hv, pystr_eqb_refl. reflexivity. }
    assert (HT : total_passes d d = true).
    { unfold total_passes. apply within_tolerance_refl, Ht. }
    assert (HL : lines_passes py_sum d d = true).
    { unfold lines_passes. rewrite Nat.eqb_refl. apply within_tolerance_refl, Hs. }
    repeat split; try assumption.
    rewrite perform_matching_logic_eq. unfold all_pass.
    rewrite HV, HT, HL. cbn [andb verdict summary_msg].
    unfold vendor_finding, total_finding, lines_finding.
    unfold total_passes in HT. unfold lines_passes in HL.
    apply andb_prop in HL. destruct HL as [HL1 HL2].
    rewrite HV, HT, HL1, HL2. reflexivity.
  - intros Hv.
    assert (HV : vendor_cond str_lower d d = false).
    { unfold vendor_cond. rewrite Hv. reflexivity. }
    split; [exact HV |].
    rewrite perform_matching_logic_eq. unfold all_pass. rewrite HV. reflexivity.
Qed.

Lemma self_match_approved_witness :
  fst (perform_matching_logic ascii_lower sum_left acme_invoice acme_invoice)
    = lit "APPROVED"
  /\ fst (perform_matching_logic ascii_lower sum_left (with_vendor None acme_invoice)
            (with_vendor None acme_invoice)) = lit "NEEDS REVIEW".
Proof.
  split.
  - destruct (self_match_approved ascii_lower sum_left acme_invoice) as [H _].
    destruct H as [_ [_ [_ H]]];
      [reflexivity | vm_compute; reflexivity | vm_compute; reflexivity |].
    rewrite H. reflexivity.
  - destruct (self_match_approved ascii_lower sum_left (with_vendor None acme_invoice))
      as [_ H].
    apply H. reflexivity.
Defined.

(** ** C2: the vendor check *)

(** C2 (counterexample): two empty vendors do not pass the vendor check. *)
Lemma vendor_both_empty_fails :
  vendor_cond ascii_lower (with_vendor (Some []) acme_invoice)
    (with_vendor (Some []) acme_po) = false.
Proof. reflexivity. Qed.

(** C2 (amended): the vendor check passes exactly when the invoice's vendor
    is present and non-empty and [strip().lower()] of it equals that of the
    PO's vendor (a missing PO vendor read as [""]); its finding on success
    prints the invoice vendor, and on failure prints both raw vendor values
    as they are, a missing one as [None]. *)
Theorem vendor_check_spec (str_lower : pystr -> pystr)
  (py_sum : list float -> float) (inv po : Document) :
  (vendor_cond str_lower inv po = true <->
     exists v, vendor inv = Some v /\ v <> []
       /\ str_lower (strip v) = str_lower (strip (get_vendor_or_empty po)))
  /\ (vendor_cond str_lower inv po = true ->
      nth 1 (snd (perform_matching_logic str_lower py_sum inv po)) [] =
      check_mark ++ lit " Vendor matches: " ++ get_vendor_or_empty inv)
  /\ (vendor_cond str_lower inv po = false ->
      nth 1 (snd (perform_matching_logic str_lower py_sum inv po)) [] =
      warning_sign ++ lit " VENDOR MISMATCH: Invoice Vendor '" ++ show_opt (vendor inv)
      ++ lit "' does not match PO Vendor '" ++ show_opt (vendor po) ++ lit "'").
Proof.
  rewrite !perform_matching_logic_eq. cbn [snd nth].
  unfold vendor_finding. split; [|split].
  - unfold vendor_cond, get_vendor_or_empty at 1.
    destruct (vendor inv) as [[|c v]|]; cbn.
    + split; [discriminate | intros (w & Hw & Hne & _); congruence].
    + rewrite pystr_eqb_eq. split.
      * intros H. exists (c :: v). repeat split; [discriminate | exact H].
      * intros (w & Hw & _ & H). injection Hw as <-. exact H.
    + split; [discriminate | intros (w & Hw & _); discriminate].
  - intros H. rewrite H. reflexivity.
  - intros H. rewrite H. reflexivity.
Qed.

Lemma vendor_check_spec_witness :
  vendor_cond ascii_lower acme_co_invoice acme_co_po = true
  /\ nth 1 (snd (perform_matching_logic ascii_lower sum_left acme_co_invoice acme_co_po)) []
     = check_mark ++ lit " Vendor matches: Acme Co ".
Proof.
  split; [reflexivity |].
  destruct (vendor_check_spec ascii_lower sum_left acme_co_invoice acme_co_po)
    as [_ [H _]].
  rewrite H; reflexivity.
Defined.

(** ** C4: the total check *)

(** C4 (counterexample): the check is not a decimal boundary at 0.01.
    Totals read as 1050.00 and 1049.99, whose decimal difference is exactly
    0.01, pass; and totals read as 0.01 and 5e-19, whose binary values
    differ by less than 1/100, fail. *)
Lemma total_boundary_not_decimal :
  ((105000 # 100) - (104999 # 100) == 1 # 100)%Q
  /\ total_passes acme_invoice acme_po = true
  /\ nth 3 (snd (perform_matching_logic ascii_lower sum_left acme_invoice acme_po)) []
     = total_ok_msg (get_total acme_invoice)
  /\ (Qabs (to_Q (get_total cents_po) - to_Q (get_total tiny_po)) < 1 # 100)%Q
  /\ total_passes cents_po tiny_po = false.
Proof.
  split; [reflexivity |].
  split; [vm_compute; reflexivity |].
  split; [vm_compute; reflexivity |].
  split; [vm_compute; reflexivity | vm_compute; reflexivity].
Qed.

(** C4 (amended): the total check passes exactly when the binary64
    computation [abs(inv_total - po_total) < 0.01] holds, [0.01] being the
    double nearest 1/100; its finding is the match message or the mismatch
    message with both totals and their difference.  It is not a decimal
    boundary: 1050.00 against 1049.99 passes, 0.02 against 0.01 fails. *)
Theorem total_check_binary64 (str_lower : pystr -> pystr)
  (py_sum : list float -> float) (inv po : Document) :
  let a := get_total inv in
  let b := get_total po in
  (total_passes inv po = true <-> fltb (fabs (fsub a b)) (dec 1 2) = true)
  /\ nth 3 (snd (perform_matching_logic str_lower py_sum inv po)) [] =
     (if total_passes inv po then total_ok_msg a
      else total_mismatch_msg a b (fabs (fsub a b)))
  /\ total_passes acme_invoice acme_po = true
  /\ total_passes cents_invoice cents_po = false.
Proof.
  cbv zeta. rewrite perform_matching_logic_eq. cbn [snd nth].
  split; [reflexivity |].
  split; [reflexivity |].
  split; vm_compute; reflexivity.
Qed.

(** ** C5: the line-item check *)

(** C5 (counterexample): line items with equal counts whose sums read
    1050.00 and 1049.99 (a decimal difference of exactly 0.01) pass. *)
Lemma line_sum_boundary_not_decimal :
  lines_passes sum_left acme_invoice acme_po = true
  /\ nth 4 (snd (perform_matching_logic ascii_lower sum_left acme_invoice acme_po)) []
     = lines_ok_msg (dec 105000 2).
Proof. split; vm_compute; reflexivity. Qed.

(** C5 (amended): with different item counts the line-item check fails, its
    finding reports both counts, and the run does not depend on the
    summation at all; with equal counts it passes exactly when the binary64
    [abs(inv_sum - po_sum) < 0.01] holds, the comparison of the total
    check, and its finding reports the invoice sum or the difference. *)
Theorem line_item_check_spec (str_lower : pystr -> pystr)
  (py_sum : list float -> float) (inv po : Document) :
  let a := get_items inv in
  let b := get_items po in
  let r := perform_matching_logic str_lower py_sum inv po in
  (List.length a <> List.length b ->
     lines_passes py_sum inv po = false
     /\ nth 4 (snd r) [] = count_mismatch_msg (List.length a) (List.length b)
     /\ forall py_sum' : list float -> float,
          perform_matching_logic str_lower py_sum' inv po = r)
  /\ (List.length a = List.length b ->
     let sa := line_sum py_sum a in
     let sb := line_sum py_sum b in
     lines_passes py_sum inv po = within_tolerance sa sb
     /\ nth 4 (snd r) [] =
        (if within_tolerance sa sb then lines_ok_msg sa
         else lines_mismatch_msg (fabs (fsub sa sb)))).
Proof.
  cbv zeta. split.
  - intros Hn. apply Nat.eqb_neq in Hn.
    assert (HL : forall s, lines_passes s inv po = false).
    { intros s. unfold lines_passes. rewrite Hn. reflexivity. }
    split; [apply HL |].
    rewrite perform_matching_logic_eq. cbn [snd nth].
    unfold lines_finding. rewrite Hn. split; [reflexivity |].
    intros s'. rewrite !perform_matching_logic_eq.
    unfold all_pass, lines_finding. rewrite !HL, Hn. reflexivity.
  - intros Hn. apply Nat.eqb_eq in Hn.
    rewrite perform_matching_logic_eq. cbn [snd nth].
    unfold lines_passes, lines_finding. rewrite Hn. split; reflexivity.
Qed.

(** * Further properties of the code *)

(** ** Floating-point helpers *)

Lemma binary_round_aux_abs (s1 s2 : bool) (m e : Z) (l : location) :
  SFabs (binary_round_aux prec emax s1 m e l) = SFabs (binary_round_aux prec emax s2 m e l).
Proof.
  unfold binary_round_aux.
  destruct (shr_fexp prec emax m e l) as [mrs' e'].
  destruct (shr_fexp prec emax _ e' loc_Exact) as [mrs'' e''].
  destruct (shr_m mrs''); try reflexivity.
  destruct (Z.leb e'' (Z.sub emax prec)); reflexivity.
Qed.

Lemma binary_normalize_abs_opp (z e : Z) :
  SFabs (binary_normalize prec emax (Z.opp z) e false) =
  SFabs (binary_normalize prec emax z e false).
Proof.
  destruct z as [|m|m]; cbn [Z.opp binary_normalize]; try reflexivity;
    unfold binary_round; destruct (shl_align _ _ _) as [mz ez];
    apply binary_round_aux_abs.
Qed.

(** [abs(a - b) == abs(b - a)] for all doubles, NaN and infinities
    included. *)
Lemma fabs_fsub_comm (a b : float) : fabs (fsub a b) = fabs (fsub b a).
Proof.
  destruct a as [sa|sa| |sa ma ea], b as [sb|sb| |sb mb eb];
    try (destruct sa); try (destruct sb); try reflexivity;
    unfold fabs, fsub, SFsub; rewrite (Z.min_comm eb ea);
    match goal with
    | |- SFabs (binary_normalize _ _ ?x ?e _) = SFabs (binary_normalize _ _ ?y _ _) =>
        rewrite <- (binary_normalize_abs_opp y e); replace (Z.opp y) with x by lia;
        reflexivity
    end.
Qed.

Lemma within_tolerance_comm (a b : float) :
  within_tolerance a b = within_tolerance b a.
Proof. unfold within_tolerance. rewrite fabs_fsub_comm. reflexivity. Qed.

(** ** Properties of [perform_matching_logic] beyond the claims *)

(** Swapping the invoice and the purchase order changes neither the total
    check nor the line-item check: [abs(a - b) < 0.01] is symmetric in
    binary64, NaN and infinities included. *)
Theorem total_and_lines_symmetric (py_sum : list float -> float) (inv po : Document) :
  total_passes inv po = total_passes po inv
  /\ lines_passes py_sum inv po = lines_passes py_sum po inv.
Proof.
  unfold total_passes, lines_passes. split.
  - apply within_tolerance_comm.
  - rewrite Nat.eqb_sym, within_tolerance_comm. reflexivity.
Qed.

Lemma fltb_nonfinite_abs (x : float) :
  float_is_finite x = false -> fltb (fabs x) tolerance = false.
Proof. destruct x; try discriminate; reflexivity. Qed.

Lemma fsub_nonfinite_left (a b : float) :
  float_is_finite a = false -> float_is_finite (fsub a b) = false.
Proof.
  destruct a as [sa|sa| |sa ma ea]; try discriminate; intros _;
    destruct b as [sb|sb| |sb mb eb]; try reflexivity;
    destruct sa, sb; reflexivity.
Qed.

(** A total that is infinite or NaN on either side (an overflowing literal
    such as [1e400] is read as [inf]) always fails the total check, even
    against the same value, and the status is [NEEDS REVIEW]. *)
Theorem nonfinite_total_fails (str_lower : pystr -> pystr)
  (py_sum : list float -> float) (inv po : Document)
  (H : float_is_finite (get_total inv) = false \/ float_is_finite (get_total po) = false) :
  total_passes inv po = false
  /\ fst (perform_matching_logic str_lower py_sum inv po) = lit "NEEDS REVIEW".
Proof.
  assert (HT : total_passes inv po = false).
  { unfold total_passes, within_tolerance.
    destruct H as [H | H].
    - apply fltb_nonfinite_abs, fsub_nonfinite_left, H.
    - rewrite fabs_fsub_comm. apply fltb_nonfinite_abs, fsub_nonfinite_left, H. }
  split; [exact HT |].
  rewrite perform_matching_logic_eq. unfold all_pass. rewrite HT.
  rewrite !andb_false_r. reflexivity.
Qed.

Lemma nonfinite_total_fails_witness :
  float_is_finite (get_total overflow_invoice) = false
  /\ total_passes overflow_invoice overflow_invoice = false.
Proof.
  split; [reflexivity |].
  apply (nonfinite_total_fails ascii_lower sum_left overflow_invoice overflow_invoice).
  left; reflexivity.
Defined.

(** With no items on either side ([items] missing or empty), the line-item
    check passes and reports a line sum of [$0.00], given that the empty
    sum is [0] as Python's [sum] returns. *)
Theorem no_items_line_check (str_lower : pystr -> pystr)
  (py_sum : list float -> float) (inv po : Document)
  (H0 : py_sum [] = fzero) (Hi : get_items inv = []) (Hp : get_items po = []) :
  lines_passes py_sum inv po = true
  /\ nth 4 (snd (perform_matching_logic str_lower py_sum inv po)) [] =
     check_mark ++ lit " All line items and line totals appear correct (Line Sum: $0.00)".
Proof.
  rewrite perform_matching_logic_eq. cbn [snd nth].
  unfold lines_passes, lines_finding, line_sum. rewrite Hi, Hp. cbn [map List.length Nat.eqb].
  rewrite H0. split; reflexivity.
Qed.

Lemma no_items_line_check_witness :
  sum_left [] = fzero /\ get_items overflow_invoice = [] /\ get_items no_items_po = []
  /\ lines_passes sum_left overflow_invoice no_items_po = true.
Proof.
  split; [reflexivity | split; [reflexivity | split; [reflexivity |]]].
  apply (no_items_line_check ascii_lower sum_left overflow_invoice no_items_po);
    reflexivity.
Defined.

(** ** Text extraction *)

Lemma concat_pages_none (pages : list (option pystr)) (acc : pystr) :
  concat_pages pages acc = None <-> In None pages.
Proof.
  revert acc. induction pages as [|[t|] rest IH]; intros acc; cbn.
  - split; [discriminate | contradiction].
  - rewrite IH. split; [auto | intros [H | H]; [discriminate | exact H]].
  - split; auto.
Qed.

Lemma concat_pages_some (texts : list pystr) (acc : pystr) :
  concat_pages (map Some texts) acc =
  Some (acc ++ List.concat (map (fun t => t ++ page_sep) texts)).
Proof.
  revert acc. induction texts as [|t rest IH]; intros acc; cbn.
  - rewrite app_nil_r. reflexivity.
  - rewrite IH, !app_assoc. reflexivity.
Qed.

(** [extract_text_from_pdf] returns [None] exactly when a pdfplumber step
    raises (opening the file, listing its pages or extracting a page's text:
    [pdf_pages] gives [None]) or some page's [extract_text()] returns [None];
    otherwise it returns each page's text followed by ["\n---\n"].
    That text is empty, and so rejected by the endpoint, exactly when the
    PDF has no pages. *)
Theorem extract_text_from_pdf_spec
  (pdf_pages : bytes -> option (list (option pystr))) (b : bytes) :
  (extract_text_from_pdf pdf_pages b = None <->
     pdf_pages b = None \/ exists pages, pdf_pages b = Some pages /\ In None pages)
  /\ (forall texts, pdf_pages b = Some (map Some texts) ->
        extract_text_from_pdf pdf_pages b =
          Some (List.concat (map (fun t => t ++ page_sep) texts))
        /\ (py_truthy (extract_text_from_pdf pdf_pages b) = true <-> texts <> [])).
Proof.
  unfold extract_text_from_pdf. split.
  - destruct (pdf_pages b) as [pages|].
    + rewrite concat_pages_none. split.
      * intros H. right. exists pages. auto.
      * intros [H | (p & Hp & H)]; [discriminate | injection Hp as <-; exact H].
    + split; auto.
  - intros texts Hb. rewrite Hb, concat_pages_some. cbn. split; [reflexivity |].
    destruct texts as [|t rest]; cbn.
    + split; [discriminate | intros H; contradiction].
    + unfold page_sep, newline. rewrite <- app_assoc.
      destruct t; cbn; split; (reflexivity || discriminate).
Qed.

(** ** The [/match] endpoint *)

Lemma perform_matching_logic_shape (str_lower : pystr -> pystr)
  (py_sum : list float -> float) (i p : Document) :
  List.length (snd (perform_matching_logic str_lower py_sum i p)) = 5%nat
  /\ (fst (perform_matching_logic str_lower py_sum i p) = lit "APPROVED"
      \/ fst (perform_matching_logic str_lower py_sum i p) = lit "NEEDS REVIEW").
Proof.
  rewrite perform_matching_logic_eq. cbn [fst snd List.length].
  unfold verdict. destruct (all_pass str_lower py_sum i p); auto.
Qed.

Ltac match_documents_cases :=
  unfold match_documents;
  repeat (match goal with
          | |- context [match ?x with _ => _ end] =>
              lazymatch x with
              | body _ => fail
              | _ => let E := fresh "E" in destruct x eqn:E
              end
          end);
  cbn [code body fst snd] in *.

(** The endpoint answers 400 exactly when the upload lacks an [invoice] or
    a [po] file; it then reads no PDF and calls no model. *)
Theorem match_documents_requires_both_files (str_lower : pystr -> pystr)
  (py_sum : list float -> float) (pdf_pages : bytes -> option (list (option pystr)))
  (generate : pystr -> pystr -> pystr -> GenResult) (files : list (pystr * bytes)) :
  let r := match_documents str_lower py_sum pdf_pages generate files in
  (code (fst r) = 400%Z <->
     lookup_file (lit "invoice") files = None \/ lookup_file (lit "po") files = None)
  /\ (code (fst r) = 400%Z ->
      r = ({| code := 400%Z; body := JError missing_file_msg |}, [])).
Proof.
  cbv zeta. match_documents_cases;
    split; try split; intros; try reflexivity;
    repeat match goal with H : _ \/ _ |- _ => destruct H end;
    try discriminate; auto.
Qed.

(** When both files are uploaded but the text of either PDF is missing or
    empty, the endpoint answers 500 with the text-extraction message; it
    has read both PDFs (the second even when the first failed) and called
    no model. *)
Theorem match_documents_text_failure (str_lower : pystr -> pystr)
  (py_sum : list float -> float) (pdf_pages : bytes -> option (list (option pystr)))
  (generate : pystr -> pystr -> pystr -> GenResult) (files : list (pystr * bytes))
  (invoice_file po_file : bytes)
  (Hi : lookup_file (lit "invoice") files = Some invoice_file)
  (Hp : lookup_file (lit "po") files = Some po_file)
  (Ht : py_truthy (extract_text_from_pdf pdf_pages invoice_file) = false
        \/ py_truthy (extract_text_from_pdf pdf_pages po_file) = false) :
  match_documents str_lower py_sum pdf_pages generate files =
  ({| code := 500%Z; body := JError no_text_msg |}, [EvPdf invoice_file; EvPdf po_file]).
Proof.
  unfold match_documents. rewrite Hi, Hp.
  destruct (extract_text_from_pdf pdf_pages invoice_file) as [[|c it]|];
    destruct (extract_text_from_pdf pdf_pages po_file) as [[|d pt]|];
    try reflexivity.
  destruct Ht; discriminate.
Qed.

Lemma match_documents_text_failure_witness :
  lookup_file (lit "invoice") pageless_upload = Some []
  /\ lookup_file (lit "po") pageless_upload = Some pdf_file
  /\ code (fst (match_documents ascii_lower sum_left sample_pdf_pages sample_generate
                  pageless_upload)) = 500%Z.
Proof.
  split; [reflexivity | split; [reflexivity |]].
  rewrite (match_documents_text_failure ascii_lower sum_left sample_pdf_pages
             sample_generate pageless_upload [] pdf_file);
    [reflexivity | reflexivity | reflexivity | left; reflexivity].
Defined.

(** When both PDFs give text but either model call raises, the endpoint
    answers 500 with ["Extraction failed: "], the invoice's error text, a
    space and the PO's error text, where a call that succeeded contributes
    [""] and a failed one ["AI extraction failed: "] and its exception
    message.  Both model calls are made, and no matching runs. *)
Theorem match_documents_ai_failure (str_lower : pystr -> pystr)
  (py_sum : list float -> float) (pdf_pages : bytes -> option (list (option pystr)))
  (generate : pystr -> pystr -> pystr -> GenResult) (files : list (pystr * bytes))
  (invoice_file po_file : bytes) (it pt : pystr)
  (Hi : lookup_file (lit "invoice") files = Some invoice_file)
  (Hp : lookup_file (lit "po") files = Some po_file)
  (Hit : extract_text_from_pdf pdf_pages invoice_file = Some it)
  (Hpt : extract_text_from_pdf pdf_pages po_file = Some pt)
  (Hne : it <> []) (Hne' : pt <> [])
  (He : (exists e, generate (lit "INVOICE") (system_prompt (lit "INVOICE"))
                     (user_prompt it) = GenExn e)
        \/ (exists e, generate (lit "PURCHASE ORDER") (system_prompt (lit "PURCHASE ORDER"))
                     (user_prompt pt) = GenExn e)) :
  match_documents str_lower py_sum pdf_pages generate files =
  ({| code := 500%Z;
      body := JError (lit "Extraction failed: "
                      ++ exn_text (generate (lit "INVOICE") (system_prompt (lit "INVOICE"))
                                     (user_prompt it))
                      ++ lit " "
                      ++ exn_text (generate (lit "PURCHASE ORDER")
                                     (system_prompt (lit "PURCHASE ORDER")) (user_prompt pt))) |},
   [EvPdf invoice_file; EvPdf po_file; EvAI (lit "INVOICE") it; EvAI (lit "PURCHASE ORDER") pt]).
Proof.
  unfold match_documents. rewrite Hi, Hp, Hit, Hpt.
  destruct it as [|c it]; [contradiction |]. destruct pt as [|d pt]; [contradiction |].
  unfold ai_extract_data.
  destruct (generate (lit "INVOICE") _ _) as [i|e1] eqn:E1;
    destruct (generate (lit "PURCHASE ORDER") _ _) as [p|e2] eqn:E2;
    try reflexivity.
  destruct He as [[e E] | [e E]]; congruence.
Qed.

Lemma match_documents_ai_failure_witness :
  code (fst (match_documents ascii_lower sum_left sample_pdf_pages quota_generate
               sample_upload)) = 500%Z.
Proof.
  rewrite (match_documents_ai_failure ascii_lower sum_left sample_pdf_pages quota_generate
             sample_upload pdf_file pdf_file (lit "Acme 1050.00" ++ page_sep)
             (lit "Acme 1050.00" ++ page_sep));
    try reflexivity; try discriminate.
  right. exists (lit "429 RESOURCE_EXHAUSTED"). reflexivity.
Defined.

(** When both PDFs give text and both model calls return a document, the
    endpoint answers 200 with the status and explanations of
    [perform_matching_logic] on the invoice's document and the PO's
    document, in that order, and echoes both documents unchanged.  The
    invoice file's text goes to the INVOICE call and the PO file's text to
    the PURCHASE ORDER call, each inside the user prompt. *)
Theorem match_documents_success (str_lower : pystr -> pystr)
  (py_sum : list float -> float) (pdf_pages : bytes -> option (list (option pystr)))
  (generate : pystr -> pystr -> pystr -> GenResult) (files : list (pystr * bytes))
  (invoice_file po_file : bytes) (it pt : pystr) (i p : Document)
  (Hi : lookup_file (lit "invoice") files = Some invoice_file)
  (Hp : lookup_file (lit "po") files = Some po_file)
  (Hit : extract_text_from_pdf pdf_pages invoice_file = Some it)
  (Hpt : extract_text_from_pdf pdf_pages po_file = Some pt)
  (Hne : it <> []) (Hne' : pt <> [])
  (Hgi : generate (lit "INVOICE") (system_prompt (lit "INVOICE")) (user_prompt it) = GenOk i)
  (Hgp : generate (lit "PURCHASE ORDER") (system_prompt (lit "PURCHASE ORDER"))
           (user_prompt pt) = GenOk p) :
  match_documents str_lower py_sum pdf_pages generate files =
  ({| code := 200%Z;
      body := JMatch (fst (perform_matching_logic str_lower py_sum i p))
                     (snd (perform_matching_logic str_lower py_sum i p)) i p |},
   [EvPdf invoice_file; EvPdf po_file; EvAI (lit "INVOICE") it; EvAI (lit "PURCHASE ORDER") pt]).
Proof.
  unfold match_documents. rewrite Hi, Hp, Hit, Hpt.
  destruct it as [|c it]; [contradiction |]. destruct pt as [|d pt]; [contradiction |].
  unfold ai_extract_data. rewrite Hgi, Hgp.
  destruct (perform_matching_logic str_lower py_sum i p). reflexivity.
Qed.

Lemma match_documents_success_witness :
  fst (match_documents ascii_lower sum_left sample_pdf_pages sample_generate sample_upload)
  = {| code := 200%Z;
       body := JMatch (lit "APPROVED")
                 (snd (perform_matching_logic ascii_lower sum_left acme_invoice acme_po))
                 acme_invoice acme_po |}.
Proof.
  rewrite (match_documents_success ascii_lower sum_left sample_pdf_pages sample_generate
             sample_upload pdf_file pdf_file (lit "Acme 1050.00" ++ page_sep)
             (lit "Acme 1050.00" ++ page_sep) acme_invoice acme_po);
    try reflexivity; try discriminate.
Defined.

(** Every answer of the endpoint is either an error (400 or 500) or a 200
    whose status and explanations are those of [perform_matching_logic] on
    the two documents it carries: five explanations and a status of
    [APPROVED] or [NEEDS REVIEW]. *)
Theorem match_documents_response_shape (str_lower : pystr -> pystr)
  (py_sum : list float -> float) (pdf_pages : bytes -> option (list (option pystr)))
  (generate : pystr -> pystr -> pystr -> GenResult) (files : list (pystr * bytes)) :
  let r := fst (match_documents str_lower py_sum pdf_pages generate files) in
  match body r with
  | JMatch s e i p =>
      code r = 200%Z /\ (s, e) = perform_matching_logic str_lower py_sum i p
      /\ List.length e = 5%nat /\ (s = lit "APPROVED" \/ s = lit "NEEDS REVIEW")
  | JError _ => code r = 400%Z \/ code r = 500%Z
  end.
Proof.
  cbv zeta. match_documents_cases; auto.
  match goal with
  | E : perform_matching_logic _ _ ?i ?p = (?s, ?e) |- _ =>
      pose proof (perform_matching_logic_shape str_lower py_sum i p) as [Hl Hs];
      rewrite E in Hl, Hs; cbn [fst snd] in Hl, Hs
  end.
  auto.
Qed.
